(** * A users proxy in front of the Backendless REST API (backend.py)

    The Flask application of [backend.py] has five routes.  Each one
    validates the incoming request, issues at most one HTTP call to the
    fixed upstream collection with the [requests] library and reshapes the
    answer with [backendless_response].

    The embedding below follows the Python text route by route:
    - JSON values are the Python values that [json.loads] produces
      (dictionaries are finite maps with string keys);
    - a handler is a computation in the monad [py], whose only effects are
      raising a Python exception and calling [requests.get/post/put/delete];
    - [run] interprets a handler against an upstream and returns what Flask
      sends back together with the list of upstream calls that were issued.

    The [app.logger] lines write to the log only and are left out. *)

From Stdlib Require Import ZArith String Ascii Bool.
From Stdlib Require Import Floats.SpecFloat.
From stdpp Require Import gmap strings list fin_maps.

Local Open Scope Z_scope.
Local Open Scope string_scope.

(** ** JSON values as Python sees them *)

Local Set Warnings "-register-all".

Inductive json : Type :=
| JNull
| JBool (b : bool)
| JInt (z : Z)
| JFloat (f : spec_float)
| JString (s : string)
| JArray (l : list json)
| JObject (d : gmap string json).

(** Python truth value testing, as used by [not x] and [x or y]. *)
Definition truthy (v : json) : bool :=
  match v with
  | JNull => false
  | JBool b => b
  | JInt z => negb (Z.eqb z 0)
  | JFloat (S754_zero _) => false
  | JFloat _ => true
  | JString s => negb (String.eqb s EmptyString)
  | JArray l => match l with [] => false | _ :: _ => true end
  | JObject d => negb (bool_decide (d = ∅))
  end.

(** [needle in hay] for two Python strings: substring test. *)
Fixpoint str_contains (needle hay : string) : bool :=
  if String.prefix needle hay then true
  else match hay with
       | EmptyString => false
       | String _ rest => str_contains needle rest
       end.

(** [x == 'k'] for a JSON value [x] and a string literal. *)
Definition eq_str (k : string) (v : json) : bool :=
  match v with
  | JString s => String.eqb s k
  | _ => false
  end.

(** ** Exceptions, upstream calls and the monad of handlers *)

Inductive exn : Type :=
| RequestException (msg : string)  (* requests.exceptions.RequestException; msg is str(e) *)
| JSONDecodeError                  (* requests.exceptions.JSONDecodeError *)
| AttributeError
| TypeError
| KeyError
| BadRequest.                      (* werkzeug's BadRequest, raised by request.get_json() *)

(** [except requests.exceptions.RequestException]: the JSON decoding error
    of [requests] derives from [RequestException]. *)
Definition is_RequestException (e : exn) : bool :=
  match e with
  | RequestException _ | JSONDecodeError => true
  | _ => false
  end.

(** [except requests.exceptions.JSONDecodeError] *)
Definition is_JSONDecodeError (e : exn) : bool :=
  match e with
  | JSONDecodeError => true
  | _ => false
  end.

(** [str(e)] *)
Definition str_exn (e : exn) : string :=
  match e with
  | RequestException msg => msg
  | JSONDecodeError => "JSONDecodeError"
  | AttributeError => "AttributeError"
  | TypeError => "TypeError"
  | KeyError => "KeyError"
  | BadRequest => "400 Bad Request"
  end.

Inductive method : Type := GET | POST | PUT | DELETE.

(** One call of [requests.<method>(url, json=payload)]. *)
Record upstream_call : Type := UpstreamCall {
  call_method : method;
  call_url : string;
  call_json : option json
}.

(** The [requests.Response] object, as far as the handlers read it:
    [status_code], [text] and the outcome of [json()]
    ([None] when the body does not parse and [json()] raises). *)
Record Response : Type := MkResponse {
  status_code : Z;
  text : string;
  parsed : option json
}.

(** What a call of [requests] does: hand back a response, or raise a
    [RequestException] whose [str] is [msg]. *)
Inductive upstream_result : Type :=
| Answer (r : Response)
| Fails (msg : string).

Inductive py (A : Type) : Type :=
| Return (a : A)
| Raise (e : exn)
| Request (c : upstream_call) (k : upstream_result → py A).

Arguments Return {A} a.
Arguments Raise {A} e.
Arguments Request {A} c k.

(** [try: p  except <catches> as e: h e  else: k a].  A [return] in the
    [try] block is the case [k := Return]. *)
Fixpoint try_except_else {A B} (p : py A) (catches : exn → bool)
    (h : exn → py B) (k : A → py B) : py B :=
  match p with
  | Return a => k a
  | Raise e => if catches e then h e else Raise e
  | Request c f => Request c (λ o, try_except_else (f o) catches h k)
  end.

Definition try_except {A} (p : py A) (catches : exn → bool) (h : exn → py A) : py A :=
  try_except_else p catches h Return.

Fixpoint py_bind {A B} (k : A → py B) (p : py A) : py B :=
  match p with
  | Return a => k a
  | Raise e => Raise e
  | Request c f => Request c (λ o, py_bind k (f o))
  end.

#[global] Instance py_mret : MRet py := λ A a, Return a.
#[global] Instance py_mbind : MBind py := λ A B k p, py_bind k p.

(** ** The pieces of Python, requests and Flask that the handlers use *)

Definition request_call (m : method) (url : string) (payload : option json) : py Response :=
  Request (UpstreamCall m url payload)
    (λ o, match o with
          | Answer r => Return r
          | Fails msg => Raise (RequestException msg)
          end).

Definition requests_get (url : string) : py Response := request_call GET url None.
Definition requests_post (url : string) (payload : json) : py Response :=
  request_call POST url (Some payload).
Definition requests_put (url : string) (payload : json) : py Response :=
  request_call PUT url (Some payload).
Definition requests_delete (url : string) : py Response := request_call DELETE url None.

(** [response.json()] *)
Definition Response_json (r : Response) : py json :=
  match parsed r with
  | Some data => Return data
  | None => Raise JSONDecodeError
  end.

(** [response.ok]: in [requests] it is false exactly when
    [raise_for_status] raises, that is for a status from 400 to 599. *)
Definition Response_ok (r : Response) : bool :=
  negb (Z.leb 400 (status_code r) && Z.ltb (status_code r) 600).

(** [data.get(key, dflt)]: a method of dictionaries only. *)
Definition py_get (data : json) (key : string) (dflt : json) : py json :=
  match data with
  | JObject d => Return (default dflt (d !! key))
  | _ => Raise AttributeError
  end.

(** ['key' in data]: key membership for a dictionary, element membership
    for a list, substring test for a string; the other JSON values are not
    iterable. *)
Definition py_contains (key : string) (data : json) : py bool :=
  match data with
  | JObject d => Return (bool_decide (is_Some (d !! key)))
  | JArray l => Return (existsb (eq_str key) l)
  | JString s => Return (str_contains key s)
  | _ => Raise TypeError
  end.

(** [data['key']] with a string key: only a dictionary can be indexed by a
    string. *)
Definition py_getitem (data : json) (key : string) : py json :=
  match data with
  | JObject d => match d !! key with
                 | Some v => Return v
                 | None => Raise KeyError
                 end
  | _ => Raise TypeError
  end.

(** [s or dflt] for a Python string [s]. *)
Definition str_or (s dflt : string) : string :=
  if String.eqb s EmptyString then dflt else s.

(** [status in (200, 204)] *)
Definition in_200_204 (status : Z) : bool :=
  Z.eqb status 200 || Z.eqb status 204.

(** The Flask request, as far as the handlers read it: [request.is_json]
    (the content type announces JSON) and the body as [request.get_json()]
    parses it ([None] when it does not parse). *)
Record flask_request : Type := MkRequest {
  is_json : bool;
  body : option json
}.

(** [request.get_json()]; the handlers call it after the [is_json] test
    only, where a body that does not parse raises [BadRequest]. *)
Definition get_json (request : flask_request) : py json :=
  match body request with
  | Some data => Return data
  | None => Raise BadRequest
  end.

(** [jsonify(v)] builds the response whose body is the JSON text of [v];
    a view function returns it paired with the status. *)
Definition jsonify (v : json) : json := v.

Definition view_result : Type := json * Z.

(** ** backend.py *)

Definition BACKENDLESS_API_URL : string :=
  "https://strongquestion-us.backendless.app/api/data/users1".

Definition backendless_response (response : Response) : py view_result :=
  try_except_else (Response_json response) is_JSONDecodeError
    (λ _, Return (jsonify (JObject {[ "message" :=
                     JString (str_or (text response) "Operation successful") ]}),
                  status_code response))
    (λ data,
       if Response_ok response then
         Return (jsonify data, status_code response)
       else
         error_message ← py_get data "message"
                           (JString "An unexpected Backendless error occurred.");
         Return (jsonify (JObject {[ "error" := error_message; "details" := data ]}),
                 status_code response)).

(** The [except requests.exceptions.RequestException as e] clause shared by
    the five routes. *)
Definition connectivity_error (e : exn) : py view_result :=
  Return (jsonify (JObject {[ "error" := JString "Failed to connect to Backendless API";
                              "details" := JString (str_exn e) ]}),
          503).

Definition get_all_users : py view_result :=
  try_except
    (response ← requests_get BACKENDLESS_API_URL;
     backendless_response response)
    is_RequestException connectivity_error.

Definition create_user (request : flask_request) : py view_result :=
  if negb (is_json request) then
    Return (jsonify (JObject {[ "error" := JString "Missing JSON in request" ]}), 400)
  else
    data ← get_json request;
    nombre ← py_get data "nombre" JNull;
    email ← py_get data "email" JNull;
    if negb (truthy nombre) || negb (truthy email) then
      Return (jsonify (JObject {[ "error" :=
                JString "Missing required fields: 'nombre' and 'email'" ]}), 400)
    else
      let payload := JObject {[ "nombre" := nombre; "email" := email ]} in
      try_except
        (response ← requests_post BACKENDLESS_API_URL payload;
         backendless_response response)
        is_RequestException connectivity_error.

Definition get_user (object_id : string) : py view_result :=
  let user_url := BACKENDLESS_API_URL +:+ "/" +:+ object_id in
  try_except
    (response ← requests_get user_url;
     backendless_response response)
    is_RequestException connectivity_error.

Definition update_user (request : flask_request) (object_id : string) : py view_result :=
  if negb (is_json request) then
    Return (jsonify (JObject {[ "error" := JString "Missing JSON in request" ]}), 400)
  else
    data ← get_json request;
    let user_url := BACKENDLESS_API_URL +:+ "/" +:+ object_id in
    let payload : gmap string json := ∅ in
    has_nombre ← py_contains "nombre" data;
    payload ← (if has_nombre : bool then
                 v ← py_getitem data "nombre"; Return (<["nombre" := v]> payload)
               else Return payload);
    has_email ← py_contains "email" data;
    payload ← (if has_email : bool then
                 v ← py_getitem data "email"; Return (<["email" := v]> payload)
               else Return payload);
    if negb (truthy (JObject payload)) then
      Return (jsonify (JObject {[ "error" :=
                JString "No valid fields provided for update ('nombre' or 'email')" ]}), 400)
    else
      try_except
        (response ← requests_put user_url (JObject payload);
         backendless_response response)
        is_RequestException connectivity_error.

Definition delete_user (object_id : string) : py view_result :=
  let user_url := BACKENDLESS_API_URL +:+ "/" +:+ object_id in
  try_except
    (response ← requests_delete user_url;
     if in_200_204 (status_code response) then
       Return (jsonify (JObject {[ "message" :=
                 JString ("User " +:+ object_id +:+ " successfully deleted") ]}), 200)
     else
       backendless_response response)
    is_RequestException connectivity_error.

(** ** Running a handler *)

(** The five operations, with the [object_id] path segment where the route
    has one. *)
Inductive operation : Type :=
| GetAllUsers
| CreateUser
| GetUser (object_id : string)
| UpdateUser (object_id : string)
| DeleteUser (object_id : string).

(** Flask's dispatch of an operation to its view function. *)
Definition handler (op : operation) (request : flask_request) : py view_result :=
  match op with
  | GetAllUsers => get_all_users
  | CreateUser => create_user request
  | GetUser object_id => get_user object_id
  | UpdateUser object_id => update_user request object_id
  | DeleteUser object_id => delete_user object_id
  end.

(** What the client of the proxy gets: the view's body and status, or the
    exception that left the view. *)
Inductive outcome : Type :=
| Responded (body : json) (status : Z)
| Uncaught (e : exn).

(** The status Flask sends: the view's own, 400 for [BadRequest], and 500
    for any other exception that leaves the view. *)
Definition http_status (o : outcome) : Z :=
  match o with
  | Responded _ status => status
  | Uncaught BadRequest => 400
  | Uncaught _ => 500
  end.

(** The field [key] of a response whose body is a JSON object. *)
Definition body_field (o : outcome) (key : string) : option json :=
  match o with
  | Responded (JObject d) _ => d !! key
  | _ => None
  end.

Definition upstream : Type := upstream_call → upstream_result.

(** [run up p] plays [p] against the upstream [up]: the outcome and the
    upstream calls issued, in order. *)
Fixpoint run (up : upstream) (p : py view_result) : outcome * list upstream_call :=
  match p with
  | Return (b, s) => (Responded b s, [])
  | Raise e => (Uncaught e, [])
  | Request c k => let '(o, calls) := run up (k (up c)) in (o, c :: calls)
  end.

(** The first upstream call of a computation, when it starts with one. *)
Definition first_call {A} (p : py A) : option upstream_call :=
  match p with
  | Request c _ => Some c
  | _ => None
  end.

(** ** Notions used in the statements *)

(** [try: response = requests.<m>(url, json=payload); return f(response)
    except RequestException as e: ...] *)
Definition forward (c : upstream_call) (f : Response → py view_result) : py view_result :=
  try_except
    (response ← request_call (call_method c) (call_url c) (call_json c); f response)
    is_RequestException connectivity_error.

Definition delete_shortcut (op : operation) (response : Response) : bool :=
  match op with
  | DeleteUser _ => in_200_204 (status_code response)
  | _ => false
  end.

(** The dictionary [payload] that [update_user] fills from a dictionary
    body: the fields among [nombre] and [email] that the body has. *)
Definition update_payload (d : gmap string json) : gmap string json :=
  let payload : gmap string json := ∅ in
  let payload := match d !! "nombre" with
                 | Some v => <["nombre" := v]> payload
                 | None => payload
                 end in
  match d !! "email" with
  | Some v => <["email" := v]> payload
  | None => payload
  end.

(** An operation reaches the normalization of [response] when it issues its
    upstream call, the call answers [response], and the answer is not the
    one that [delete_user] treats itself. *)
Definition reaches_normalization (up : upstream) (op : operation)
    (request : flask_request) (response : Response) : Prop :=
  ∃ c, first_call (handler op request) = Some c ∧
       up c = Answer response ∧
       delete_shortcut op response = false.

(** A field that [data.get(key)] does not find, or finds with a value that
    [not] takes for false (the empty string, [null], [false], zero, an empty
    list or dictionary). *)
Definition missing_or_falsy (d : gmap string json) (key : string) : Prop :=
  d !! key = None ∨ ∃ v, d !! key = Some v ∧ truthy v = false.

(** The number of nodes of a JSON value. *)
Fixpoint json_size (v : json) : nat :=
  match v with
  | JArray l => S (foldr (λ v' acc, json_size v' + acc)%nat 0%nat l)
  | JObject d => S (map_fold (λ _ v' acc, json_size v' + acc)%nat 0%nat d)
  | _ => 1%nat
  end.

(** ** Sample traffic *)

Definition quoted (s : string) : string := String "034" (s +:+ String "034" EmptyString).

(** A request without a JSON body, as the GET and DELETE routes get it. *)
Definition request_plain : flask_request := MkRequest false None.

(** [POST /users] with body [{nombre: Ana, email: ana@x.com}], answered by
    the upstream with 200 and the stored record. *)
Definition body_ana : json :=
  JObject {[ "nombre" := JString "Ana"; "email" := JString "ana@x.com" ]}.
Definition request_ana : flask_request := MkRequest true (Some body_ana).
Definition record_ana : json :=
  JObject {[ "objectId" := JString "abc123";
             "nombre" := JString "Ana"; "email" := JString "ana@x.com" ]}.
Definition response_ana : Response :=
  MkResponse 200
    ("{" +:+ quoted "objectId" +:+ ":" +:+ quoted "abc123" +:+ "," +:+
     quoted "nombre" +:+ ":" +:+ quoted "Ana" +:+ "," +:+
     quoted "email" +:+ ":" +:+ quoted "ana@x.com" +:+ "}")
    (Some record_ana).
Definition up_ana : upstream := λ _, Answer response_ana.

(** [POST /users] with an empty [email]. *)
Definition body_no_email : gmap string json :=
  {[ "nombre" := JString "Ana"; "email" := JString EmptyString ]}.
Definition request_no_email : flask_request := MkRequest true (Some (JObject body_no_email)).

(** [POST /users] with a field that the proxy does not know. *)
Definition body_extra : gmap string json :=
  {[ "nombre" := JString "Ana"; "email" := JString "ana@x.com"; "admin" := JBool true ]}.
Definition request_extra : flask_request := MkRequest true (Some (JObject body_extra)).

(** A body with an empty [nombre] and a [null] [email]. *)
Definition body_blank : gmap string json :=
  {[ "nombre" := JString EmptyString; "email" := JNull ]}.
Definition request_blank : flask_request := MkRequest true (Some (JObject body_blank)).

(** A request that announces JSON with a body that does not parse. *)
Definition request_malformed : flask_request := MkRequest true None.

(** A request whose JSON body is the array [["nombre"]]. *)
Definition request_array_nombre : flask_request :=
  MkRequest true (Some (JArray [JString "nombre"])).

(** A request whose JSON body is the empty array. *)
Definition request_array : flask_request := MkRequest true (Some (JArray [])).

(** A request whose JSON body is [null]. *)
Definition request_null : flask_request := MkRequest true (Some JNull).

(** A request whose JSON body is [{edad: 30}]. *)
Definition request_age : flask_request :=
  MkRequest true (Some (JObject {[ "edad" := JInt 30 ]})).

(** An upstream that answers 300 with the JSON body [{}]. *)
Definition response_300 : Response := MkResponse 300 "{}" (Some (JObject ∅)).
Definition up_300 : upstream := λ _, Answer response_300.

(** An upstream that answers 404 with a Backendless error body. *)
Definition body_404 : json :=
  JObject {[ "code" := JInt 1000; "message" := JString "Entity not found" ]}.
Definition response_404 : Response :=
  MkResponse 404
    ("{" +:+ quoted "code" +:+ ":1000," +:+
     quoted "message" +:+ ":" +:+ quoted "Entity not found" +:+ "}")
    (Some body_404).
Definition up_404 : upstream := λ _, Answer response_404.

(** An upstream that answers 500 with the JSON body [[]]. *)
Definition response_500_array : Response := MkResponse 500 "[]" (Some (JArray [])).
Definition up_500_array : upstream := λ _, Answer response_500_array.

(** An upstream that answers 204 with no content. *)
Definition response_204 : Response := MkResponse 204 EmptyString None.
Definition up_204 : upstream := λ _, Answer response_204.

(** An upstream that answers 502 with an HTML page. *)
Definition response_502 : Response := MkResponse 502 "<html>Bad Gateway</html>" None.
Definition up_502 : upstream := λ _, Answer response_502.

(** An upstream that cannot be reached. *)
Definition up_down : upstream := λ _, Fails "Connection refused".

(** * Properties *)

(** ** The response normalization *)

Ltac py_unfold :=
  unfold try_except, mbind, py_mbind, mret, py_mret, jsonify in *.

Lemma backendless_response_not_json response :
  parsed response = None →
  backendless_response response =
    Return (JObject {[ "message" := JString (str_or (text response) "Operation successful") ]},
            status_code response).
Proof.
  intros Hp. unfold backendless_response, Response_json. rewrite Hp. reflexivity.
Qed.

Lemma backendless_response_ok response data :
  parsed response = Some data →
  Response_ok response = true →
  backendless_response response = Return (data, status_code response).
Proof.
  intros Hp Hok. unfold backendless_response, Response_json.
  rewrite Hp. cbn [try_except_else]. rewrite Hok. reflexivity.
Qed.

Lemma backendless_response_error response d :
  parsed response = Some (JObject d) →
  Response_ok response = false →
  backendless_response response =
    Return (JObject {[ "error" := default (JString "An unexpected Backendless error occurred.")
                                          (d !! "message");
                       "details" := JObject d ]},
            status_code response).
Proof.
  intros Hp Hok. unfold backendless_response, Response_json.
  rewrite Hp. cbn [try_except_else]. rewrite Hok. reflexivity.
Qed.

Lemma backendless_response_error_not_dict response data :
  parsed response = Some data →
  (∀ d, data ≠ JObject d) →
  Response_ok response = false →
  backendless_response response = Raise AttributeError.
Proof.
  intros Hp Hd Hok. unfold backendless_response, Response_json.
  rewrite Hp. cbn [try_except_else]. rewrite Hok.
  destruct data; try reflexivity. now destruct (Hd d).
Qed.

(** The normalization issues no upstream call and raises nothing that the
    routes' [except] clause catches. *)
Lemma backendless_response_pure response :
  (∃ b s, backendless_response response = Return (b, s)) ∨
  backendless_response response = Raise AttributeError.
Proof.
  destruct (parsed response) as [data|] eqn:Hp.
  - destruct (Response_ok response) eqn:Hok.
    + left. eexists _, _. by apply backendless_response_ok.
    + destruct data;
        try (right; eapply backendless_response_error_not_dict; [done| |done]; congruence).
      left. eexists _, _. by apply backendless_response_error.
  - left. eexists _, _. by apply backendless_response_not_json.
Qed.

Lemma try_except_backendless_response response :
  try_except (backendless_response response) is_RequestException connectivity_error
  = backendless_response response.
Proof.
  destruct (backendless_response_pure response) as [(b & s & ->) | ->]; reflexivity.
Qed.

(** ** The shape of a route that forwards *)

Lemma first_call_forward c f : first_call (forward c f) = Some c.
Proof. by destruct c. Qed.

Lemma run_forward up c f :
  run up (forward c f) =
  match up c with
  | Answer r =>
      let '(o, calls) := run up (try_except (f r) is_RequestException connectivity_error) in
      (o, c :: calls)
  | Fails msg =>
      (Responded (JObject {[ "error" := JString "Failed to connect to Backendless API";
                             "details" := JString msg ]}) 503, [c])
  end.
Proof.
  destruct c as [m url payload]. unfold forward, request_call. py_unfold.
  cbn [run py_bind try_except_else call_method call_url call_json].
  destruct (up _) as [r | msg]; reflexivity.
Qed.

Lemma create_user_forward request c :
  first_call (create_user request) = Some c →
  create_user request = forward c backendless_response.
Proof.
  unfold create_user. destruct (is_json request); cbn [negb]; [| discriminate].
  unfold get_json. destruct (body request) as [data |]; [| discriminate].
  py_unfold. cbn [py_bind].
  destruct data; try discriminate.
  cbn [py_get py_bind].
  destruct (negb (truthy _) || negb (truthy _)); [discriminate |].
  intros [= <-]. reflexivity.
Qed.

Lemma bool_decide_is_Some {A} (o : option A) :
  bool_decide (is_Some o) = match o with Some _ => true | None => false end.
Proof.
  destruct o.
  - apply bool_decide_eq_true_2. eauto.
  - apply bool_decide_eq_false_2. intros [? [=]].
Qed.

Lemma update_user_dict request object_id d :
  is_json request = true →
  body request = Some (JObject d) →
  update_user request object_id =
    if negb (truthy (JObject (update_payload d))) then
      Return (JObject {[ "error" :=
                JString "No valid fields provided for update ('nombre' or 'email')" ]}, 400)
    else
      forward (UpstreamCall PUT (BACKENDLESS_API_URL +:+ "/" +:+ object_id)
                 (Some (JObject (update_payload d))))
              backendless_response.
Proof.
  intros Hj Hb. unfold update_user, get_json, update_payload. rewrite Hj, Hb.
  py_unfold. cbn [negb py_bind py_contains]. rewrite !bool_decide_is_Some.
  destruct (d !! "nombre") as [n |] eqn:Hn; destruct (d !! "email") as [e |] eqn:He;
    cbn [py_getitem py_bind]; rewrite ?Hn, ?He; reflexivity.
Qed.

Lemma update_payload_lookup d k :
  update_payload d !! k = if bool_decide (k = "nombre" ∨ k = "email") then d !! k else None.
Proof.
  unfold update_payload.
  destruct (d !! "nombre") as [n |] eqn:Hn; destruct (d !! "email") as [e |] eqn:He;
    case_bool_decide as Hk.
  all: try (destruct Hk as [-> | ->]; simplify_map_eq; done).
  all: assert (k ≠ "nombre" ∧ k ≠ "email") as [? ?]
    by (split; intros ->; apply Hk; auto).
  all: simplify_map_eq; done.
Qed.

Lemma update_payload_empty d :
  truthy (JObject (update_payload d)) = false ↔ d !! "nombre" = None ∧ d !! "email" = None.
Proof.
  cbn [truthy]. rewrite negb_false_iff, bool_decide_eq_true. split.
  - intros He. split.
    + rewrite <- (lookup_empty (M:=gmap string) (A:=json) "nombre"), <- He, update_payload_lookup.
      rewrite bool_decide_eq_true_2; auto.
    + rewrite <- (lookup_empty (M:=gmap string) (A:=json) "email"), <- He, update_payload_lookup.
      rewrite bool_decide_eq_true_2; auto.
  - intros [Hn He]. unfold update_payload. rewrite Hn, He. reflexivity.
Qed.

Lemma update_user_forward request object_id c :
  first_call (update_user request object_id) = Some c →
  update_user request object_id = forward c backendless_response.
Proof.
  intros Hc.
  destruct (is_json request) eqn:Hj; [| unfold update_user in Hc; by rewrite Hj in Hc].
  destruct (body request) as [data |] eqn:Hb;
    [| unfold update_user, get_json in Hc; by rewrite Hj, Hb in Hc].
  destruct data as [| b | z | f | s | l | d].
  7: { (* a dictionary *)
    rewrite (update_user_dict request object_id d Hj Hb) in Hc |- *.
    destruct (negb (truthy _)); [discriminate |].
    injection Hc as <-. reflexivity. }
  all: exfalso; unfold update_user, get_json in Hc; rewrite Hj, Hb in Hc.
  all: py_unfold; cbn [negb py_bind py_contains] in Hc; try discriminate.
  - (* a string: indexing it by 'nombre' or 'email' is a TypeError *)
    destruct (str_contains "nombre" s); cbn [py_getitem py_bind] in Hc; [discriminate |].
    destruct (str_contains "email" s); cbn [py_getitem py_bind] in Hc; discriminate.
  - (* a list: the same *)
    destruct (existsb (eq_str "nombre") l); cbn [py_getitem py_bind] in Hc; [discriminate |].
    destruct (existsb (eq_str "email") l); cbn [py_getitem py_bind] in Hc; discriminate.
Qed.

Lemma get_all_users_forward :
  get_all_users = forward (UpstreamCall GET BACKENDLESS_API_URL None) backendless_response.
Proof. reflexivity. Qed.

Lemma get_user_forward object_id :
  get_user object_id =
  forward (UpstreamCall GET (BACKENDLESS_API_URL +:+ "/" +:+ object_id) None)
          backendless_response.
Proof. reflexivity. Qed.

Lemma delete_user_forward object_id :
  delete_user object_id =
  forward (UpstreamCall DELETE (BACKENDLESS_API_URL +:+ "/" +:+ object_id) None)
    (λ response,
       if in_200_204 (status_code response) then
         Return (JObject {[ "message" :=
                   JString ("User " +:+ object_id +:+ " successfully deleted") ]}, 200)
       else backendless_response response).
Proof. reflexivity. Qed.

Lemma first_call_backendless_response response :
  first_call (backendless_response response) = None.
Proof.
  destruct (backendless_response_pure response) as [(b & s & ->) | ->]; reflexivity.
Qed.

(** Every route that issues an upstream call is a [forward]; what follows
    the call issues no further call and is the normalization, the delete
    shortcut apart. *)
Lemma handler_forward op request c :
  first_call (handler op request) = Some c →
  ∃ f, handler op request = forward c f ∧
       (∀ response, try_except (f response) is_RequestException connectivity_error
                    = f response) ∧
       (∀ response, first_call (f response) = None) ∧
       (∀ response, delete_shortcut op response = false →
                    f response = backendless_response response).
Proof.
  intros Hc.
  destruct op as [| | object_id | object_id | object_id]; cbn [handler] in *.
  1-4: exists backendless_response.
  1-4: split; [first [ by apply create_user_forward | by apply update_user_forward
                     | by injection Hc as <- ] |].
  1-4: split; [apply try_except_backendless_response |].
  1-4: split; [apply first_call_backendless_response | done].
  injection Hc as <-. eexists. split; [apply delete_user_forward |].
  cbn [delete_shortcut]. split; [| split]; intros response.
  - destruct (in_200_204 _); [reflexivity | apply try_except_backendless_response].
  - destruct (in_200_204 _); [reflexivity | apply first_call_backendless_response].
  - by intros ->.
Qed.

Lemma run_pure up (p : py view_result) b s :
  p = Return (b, s) → run up p = (Responded b s, []).
Proof. by intros ->. Qed.

Lemma run_normalization up op request response o :
  reaches_normalization up op request response →
  (∀ up', run up' (backendless_response response) = (o, [])) →
  ∃ c, first_call (handler op request) = Some c ∧
       run up (handler op request) = (o, [c]).
Proof.
  intros (c & Hc & Hup & Hdel) Hrun. exists c. split; [done |].
  destruct (handler_forward op request c Hc) as (f & -> & Htry & _ & Hf).
  rewrite run_forward, Hup, Htry, (Hf _ Hdel), Hrun. reflexivity.
Qed.

(** ** Claims on the response normalization *)

Lemma Response_ok_false response :
  Response_ok response = false ↔ 400 ≤ status_code response < 600.
Proof.
  unfold Response_ok. rewrite negb_false_iff, andb_true_iff, Z.leb_le, Z.ltb_lt. done.
Qed.

(** A status from 200 to 299 is [ok]. *)
Lemma Response_ok_2xx response :
  200 ≤ status_code response < 300 → Response_ok response = true.
Proof.
  intros H. destruct (Response_ok response) eqn:Hok; [done |].
  apply Response_ok_false in Hok. lia.
Qed.

(** C2: when the upstream body parses as JSON and the response is
    successful ([response.ok], which holds for every 2xx status by
    [Response_ok_2xx]), an operation that reaches the normalization returns
    the parsed body unchanged with the upstream's status code, after its
    single upstream call. *)
Theorem json_success_unchanged up op request response data :
  reaches_normalization up op request response →
  parsed response = Some data →
  Response_ok response = true →
  ∃ c, first_call (handler op request) = Some c ∧
       run up (handler op request) = (Responded data (status_code response), [c]).
Proof.
  intros Hreach Hp Hok. apply (run_normalization _ _ _ _ _ Hreach).
  intros up'. apply run_pure. by apply backendless_response_ok.
Qed.

Lemma json_success_unchanged_witness :
  reaches_normalization up_ana CreateUser request_ana response_ana ∧
  parsed response_ana = Some record_ana ∧
  Response_ok response_ana = true ∧
  ∃ c, first_call (handler CreateUser request_ana) = Some c ∧
       run up_ana (handler CreateUser request_ana) = (Responded record_ana 200, [c]).
Proof.
  assert (Hreach : reaches_normalization up_ana CreateUser request_ana response_ana).
  { eexists. split; [reflexivity |]. split; reflexivity. }
  split; [exact Hreach |]. split; [reflexivity |]. split; [reflexivity |].
  exact (json_success_unchanged up_ana CreateUser request_ana response_ana record_ana
           Hreach eq_refl eq_refl).
Defined.

(** C8: when the upstream body does not parse as JSON, an operation that
    reaches the normalization returns [{message: <raw text>}], or
    [{message: "Operation successful"}] when the raw text is empty, with the
    upstream's status code. *)
Theorem non_json_body_message up op request response :
  reaches_normalization up op request response →
  parsed response = None →
  ∃ c, first_call (handler op request) = Some c ∧
       run up (handler op request) =
         (Responded
            (JObject {[ "message" :=
               JString (if decide (text response = EmptyString) then "Operation successful"
                        else text response) ]})
            (status_code response),
          [c]).
Proof.
  intros Hreach Hp. apply (run_normalization _ _ _ _ _ Hreach).
  intros up'. apply run_pure. rewrite (backendless_response_not_json _ Hp).
  unfold str_or. destruct (String.eqb_spec (text response) EmptyString), (decide _); done.
Qed.

Lemma non_json_body_message_witness :
  reaches_normalization up_502 (GetUser "abc123") request_plain response_502 ∧
  parsed response_502 = None ∧
  ∃ c, first_call (handler (GetUser "abc123") request_plain) = Some c ∧
       run up_502 (handler (GetUser "abc123") request_plain) =
         (Responded (JObject {[ "message" := JString "<html>Bad Gateway</html>" ]}) 502, [c]).
Proof.
  assert (Hreach : reaches_normalization up_502 (GetUser "abc123") request_plain response_502).
  { eexists. split; [reflexivity |]. split; reflexivity. }
  split; [exact Hreach |]. split; [reflexivity |].
  exact (non_json_body_message up_502 (GetUser "abc123") request_plain response_502
           Hreach eq_refl).
Defined.

Example update_empty_answer :
  run up_204 (handler (UpdateUser "abc123") request_ana) =
    (Responded (JObject {[ "message" := JString "Operation successful" ]}) 204,
     [UpstreamCall PUT (BACKENDLESS_API_URL +:+ "/abc123") (Some body_ana)]).
Proof. reflexivity. Qed.

(** The normalization of a 4xx or 5xx answer with a JSON object, through
    any operation. *)
Lemma upstream_error_wrapped_aux up op request response d :
  reaches_normalization up op request response →
  parsed response = Some (JObject d) →
  400 ≤ status_code response < 600 →
  ∃ c, first_call (handler op request) = Some c ∧
       run up (handler op request) =
         (Responded
            (JObject {[ "error" := default
                          (JString "An unexpected Backendless error occurred.")
                          (d !! "message");
                        "details" := JObject d ]})
            (status_code response),
          [c]).
Proof.
  intros Hreach Hp Hst. apply (run_normalization _ _ _ _ _ Hreach).
  intros up'. apply run_pure. apply backendless_response_error; [done |].
  by apply Response_ok_false.
Qed.

(** C1, as the code has it: when the upstream status is from 400 to 599
    (the statuses for which [response.ok] is false) and the body parses as a
    JSON object, an operation that reaches the normalization returns
    [{error: m, details: d}] with the upstream's status code, where [d] is
    the full parsed body and [m] its [message] field when present, and
    "An unexpected Backendless error occurred." otherwise. *)
Theorem upstream_error_wrapped up op request response d :
  reaches_normalization up op request response →
  parsed response = Some (JObject d) →
  400 ≤ status_code response < 600 →
  ∃ c, first_call (handler op request) = Some c ∧
       run up (handler op request) =
         (Responded
            (JObject {[ "error" := default
                          (JString "An unexpected Backendless error occurred.")
                          (d !! "message");
                        "details" := JObject d ]})
            (status_code response),
          [c]).
Proof. apply upstream_error_wrapped_aux. Qed.

Lemma upstream_error_wrapped_witness :
  reaches_normalization up_404 GetAllUsers request_plain response_404 ∧
  parsed response_404 = Some body_404 ∧
  400 ≤ status_code response_404 < 600 ∧
  ∃ c, first_call (handler GetAllUsers request_plain) = Some c ∧
       run up_404 (handler GetAllUsers request_plain) =
         (Responded (JObject {[ "error" := JString "Entity not found";
                                "details" := body_404 ]}) 404, [c]).
Proof.
  assert (Hreach : reaches_normalization up_404 GetAllUsers request_plain response_404).
  { eexists. split; [reflexivity |]. split; reflexivity. }
  assert (Hst : 400 ≤ status_code response_404 < 600) by (cbn; lia).
  split; [exact Hreach |]. split; [reflexivity |]. split; [exact Hst |].
  exact (upstream_error_wrapped up_404 GetAllUsers request_plain response_404 _
           Hreach eq_refl Hst).
Defined.

(** C1 fails as stated: a 300 answer with the JSON body [{}] is not 2xx,
    yet [response.ok] holds for it and the body comes back as it is, not
    inside [{error: .., details: ..}].  (A 500 answer whose JSON body is
    the array [[]] is not wrapped either: [data.get] raises
    [AttributeError], which leaves the route.) *)
Lemma non_2xx_not_always_wrapped :
  (reaches_normalization up_300 GetAllUsers request_plain response_300 ∧
   parsed response_300 = Some (JObject ∅) ∧
   ¬ (200 ≤ status_code response_300 < 300) ∧
   run up_300 (handler GetAllUsers request_plain) =
     (Responded (JObject ∅) 300, [UpstreamCall GET BACKENDLESS_API_URL None]) ∧
   ∀ m, fst (run up_300 (handler GetAllUsers request_plain)) ≠
        Responded (JObject {[ "error" := m; "details" := JObject ∅ ]})
                  (status_code response_300)) ∧
  (reaches_normalization up_500_array GetAllUsers request_plain response_500_array ∧
   parsed response_500_array = Some (JArray []) ∧
   ¬ (200 ≤ status_code response_500_array < 300) ∧
   run up_500_array (handler GetAllUsers request_plain) =
     (Uncaught AttributeError, [UpstreamCall GET BACKENDLESS_API_URL None])).
Proof.
  split.
  - split; [eexists; split; [reflexivity |]; split; reflexivity |].
    split; [reflexivity |]. split; [cbn; lia |]. split; [reflexivity |].
    intros m H. apply (f_equal (λ o, body_field o "error")) in H.
    vm_compute in H. discriminate.
  - split; [eexists; split; [reflexivity |]; split; reflexivity |].
    split; [reflexivity |]. split; [cbn; lia |]. reflexivity.
Qed.

(** C7, as the code has it: when the upstream answers a get-by-id with 404
    and a JSON object, the proxy returns 404 with the upstream's body under
    [details] and its [message] field (or the default string) under
    [error]. *)
Theorem get_user_404_wrapped up object_id request response d :
  up (UpstreamCall GET (BACKENDLESS_API_URL +:+ "/" +:+ object_id) None) = Answer response →
  status_code response = 404 →
  parsed response = Some (JObject d) →
  run up (handler (GetUser object_id) request) =
    (Responded
       (JObject {[ "error" := default
                     (JString "An unexpected Backendless error occurred.")
                     (d !! "message");
                   "details" := JObject d ]})
       404,
     [UpstreamCall GET (BACKENDLESS_API_URL +:+ "/" +:+ object_id) None]).
Proof.
  intros Hup Hst Hp.
  assert (Hreach : reaches_normalization up (GetUser object_id) request response).
  { eexists. split; [reflexivity |]. split; [exact Hup | reflexivity]. }
  destruct (upstream_error_wrapped_aux up (GetUser object_id) request response d Hreach Hp)
    as (c & Hc & Hrun); [lia |].
  injection Hc as <-. by rewrite Hrun, Hst.
Qed.

Lemma get_user_404_wrapped_witness :
  up_404 (UpstreamCall GET (BACKENDLESS_API_URL +:+ "/" +:+ "nope") None) = Answer response_404 ∧
  status_code response_404 = 404 ∧
  parsed response_404 = Some body_404 ∧
  run up_404 (handler (GetUser "nope") request_plain) =
    (Responded (JObject {[ "error" := JString "Entity not found";
                           "details" := body_404 ]}) 404,
     [UpstreamCall GET (BACKENDLESS_API_URL +:+ "/" +:+ "nope") None]).
Proof.
  split; [reflexivity |]. split; [reflexivity |]. split; [reflexivity |].
  exact (get_user_404_wrapped up_404 "nope" request_plain response_404 _
           eq_refl eq_refl eq_refl).
Defined.

(** C7 fails as stated: the 404 body [{code: 1000, message: "Entity not
    found"}] does not come back unchanged; the proxy's body has the fields
    [error] and [details], and the upstream's body sits under [details]. *)
Lemma get_user_404_body_changed :
  up_404 (UpstreamCall GET (BACKENDLESS_API_URL +:+ "/" +:+ "nope") None) = Answer response_404 ∧
  status_code response_404 = 404 ∧
  parsed response_404 = Some body_404 ∧
  http_status (fst (run up_404 (handler (GetUser "nope") request_plain))) = 404 ∧
  fst (run up_404 (handler (GetUser "nope") request_plain)) ≠ Responded body_404 404.
Proof.
  split; [reflexivity |]. split; [reflexivity |]. split; [reflexivity |].
  split; [reflexivity |].
  intros H. apply (f_equal (λ o, body_field o "details")) in H.
  vm_compute in H. discriminate.
Qed.

(** A field of a dictionary is smaller than the dictionary. *)
Lemma json_size_field (d : gmap string json) key v :
  d !! key = Some v → (json_size v < json_size (JObject d))%nat.
Proof.
  intros H. rewrite <- (insert_delete_id d key v H). cbn [json_size].
  rewrite map_fold_insert_L.
  - lia.
  - intros. lia.
  - apply lookup_delete_eq.
Qed.

(** No JSON value is its own [details] field: the body that the
    normalization builds for an upstream error differs from the upstream's
    body, whatever that body is. *)
Lemma error_wrapper_differs m (data : json) :
  JObject {[ "error" := m; "details" := data ]} ≠ data.
Proof.
  intros H.
  assert (Hlt : (json_size data < json_size (JObject {[ "error" := m; "details" := data ]}))%nat).
  { apply (json_size_field _ "details"). by simplify_map_eq. }
  rewrite H in Hlt. lia.
Qed.

(** For a get-by-id, no 404 answer with a JSON object comes back
    unchanged. *)
Lemma get_user_404_never_unchanged up object_id request response d :
  up (UpstreamCall GET (BACKENDLESS_API_URL +:+ "/" +:+ object_id) None) = Answer response →
  status_code response = 404 →
  parsed response = Some (JObject d) →
  fst (run up (handler (GetUser object_id) request)) ≠ Responded (JObject d) 404.
Proof.
  intros Hup Hst Hp.
  assert (Hreach : reaches_normalization up (GetUser object_id) request response).
  { eexists. split; [reflexivity |]. split; [exact Hup | reflexivity]. }
  destruct (upstream_error_wrapped_aux up (GetUser object_id) request response d Hreach Hp)
    as (c & _ & ->); [lia |].
  cbn [fst]. intros H.
  assert (H' : JObject {[ "error" := default
                            (JString "An unexpected Backendless error occurred.")
                            (d !! "message");
                          "details" := JObject d ]} = JObject d)
    by (revert H; generalize (status_code response); intros ? ?; congruence).
  by apply error_wrapper_differs in H'.
Qed.

(** ** Claims on the routes *)

(** C3: when the upstream DELETE call answers 200 or 204, whatever its
    body, the proxy returns 200 with
    [{message: "User <object_id> successfully deleted"}]. *)
Theorem delete_success_message up object_id request response :
  up (UpstreamCall DELETE (BACKENDLESS_API_URL +:+ "/" +:+ object_id) None) = Answer response →
  status_code response = 200 ∨ status_code response = 204 →
  run up (handler (DeleteUser object_id) request) =
    (Responded
       (JObject {[ "message" := JString ("User " +:+ object_id +:+ " successfully deleted") ]})
       200,
     [UpstreamCall DELETE (BACKENDLESS_API_URL +:+ "/" +:+ object_id) None]).
Proof.
  intros Hup Hst. cbn [handler]. rewrite delete_user_forward, run_forward, Hup.
  assert (in_200_204 (status_code response) = true) as ->.
  { unfold in_200_204. destruct Hst as [-> | ->]; reflexivity. }
  reflexivity.
Qed.

Lemma delete_success_message_witness :
  up_204 (UpstreamCall DELETE (BACKENDLESS_API_URL +:+ "/" +:+ "abc123") None) = Answer response_204 ∧
  (status_code response_204 = 200 ∨ status_code response_204 = 204) ∧
  run up_204 (handler (DeleteUser "abc123") request_plain) =
    (Responded (JObject {[ "message" := JString "User abc123 successfully deleted" ]}) 200,
     [UpstreamCall DELETE (BACKENDLESS_API_URL +:+ "/" +:+ "abc123") None]).
Proof.
  assert (Hst : status_code response_204 = 200 ∨ status_code response_204 = 204)
    by (right; reflexivity).
  split; [reflexivity |]. split; [exact Hst |].
  exact (delete_success_message up_204 "abc123" request_plain response_204 eq_refl Hst).
Defined.

(** The shortcut does not look at the body: a 200 answer that carries a
    JSON error body is reported as a successful deletion too. *)
Example delete_ignores_body :
  run (λ _, Answer (MkResponse 200 EmptyString (Some body_404)))
      (handler (DeleteUser "abc123") request_plain) =
    (Responded (JObject {[ "message" := JString "User abc123 successfully deleted" ]}) 200,
     [UpstreamCall DELETE (BACKENDLESS_API_URL +:+ "/" +:+ "abc123") None]).
Proof. reflexivity. Qed.

(** Each of the five operations issues its upstream call for some request. *)
Lemma every_operation_calls op :
  ∃ c, first_call (handler op request_ana) = Some c.
Proof. destruct op; eexists; reflexivity. Qed.

(** C6: for each of the five operations, when the upstream call raises a
    request error, the proxy returns 503 with [error] equal to
    "Failed to connect to Backendless API" and [details] equal to the
    error's message; that call is the only one issued. *)
Theorem connectivity_error_503 up op request c msg :
  first_call (handler op request) = Some c →
  up c = Fails msg →
  run up (handler op request) =
    (Responded
       (JObject {[ "error" := JString "Failed to connect to Backendless API";
                   "details" := JString msg ]})
       503,
     [c]).
Proof.
  intros Hc Hup. destruct (handler_forward op request c Hc) as (f & -> & _).
  by rewrite run_forward, Hup.
Qed.

Lemma connectivity_error_503_witness :
  first_call (handler (UpdateUser "abc123") request_ana) =
    Some (UpstreamCall PUT (BACKENDLESS_API_URL +:+ "/" +:+ "abc123") (Some body_ana)) ∧
  up_down (UpstreamCall PUT (BACKENDLESS_API_URL +:+ "/" +:+ "abc123") (Some body_ana)) =
    Fails "Connection refused" ∧
  run up_down (handler (UpdateUser "abc123") request_ana) =
    (Responded
       (JObject {[ "error" := JString "Failed to connect to Backendless API";
                   "details" := JString "Connection refused" ]})
       503,
     [UpstreamCall PUT (BACKENDLESS_API_URL +:+ "/" +:+ "abc123") (Some body_ana)]).
Proof.
  split; [reflexivity |]. split; [reflexivity |].
  exact (connectivity_error_503 up_down (UpdateUser "abc123") request_ana _
           "Connection refused" eq_refl eq_refl).
Defined.

Lemma run_no_call up (p : py view_result) :
  first_call p = None → snd (run up p) = [].
Proof. destruct p as [[b s] | e | c k]; [reflexivity | reflexivity | discriminate]. Qed.

(** The upstream calls of an operation: its first call, and no other. *)
Lemma handler_calls up op request :
  snd (run up (handler op request)) =
  match first_call (handler op request) with
  | Some c => [c]
  | None => []
  end.
Proof.
  destruct (first_call (handler op request)) as [c |] eqn:Hc.
  - destruct (handler_forward op request c Hc) as (f & -> & Htry & Hfree & _).
    rewrite run_forward. destruct (up c) as [r | msg]; [| reflexivity].
    rewrite Htry. pose proof (run_no_call up (f r) (Hfree r)) as Hr.
    destruct (run up (f r)) as [o calls]. cbn [snd] in *. by rewrite Hr.
  - by apply run_no_call.
Qed.

(** X16: the four ways an operation can end: without an upstream call; with
    503 after a call that raised; with the 200 of the delete shortcut; or
    with what the normalization makes of the upstream's answer. *)
Lemma handler_cases up op request :
  (first_call (handler op request) = None ∧ snd (run up (handler op request)) = []) ∨
  (∃ c msg, first_call (handler op request) = Some c ∧ up c = Fails msg ∧
            http_status (fst (run up (handler op request))) = 503) ∨
  (∃ c response, first_call (handler op request) = Some c ∧ up c = Answer response ∧
                 delete_shortcut op response = true ∧
                 http_status (fst (run up (handler op request))) = 200) ∨
  (∃ response, reaches_normalization up op request response ∧
               fst (run up (handler op request)) =
               fst (run up (backendless_response response))).
Proof.
  destruct (first_call (handler op request)) as [c |] eqn:Hc.
  - right. destruct (up c) as [response | msg] eqn:Hup.
    + right. destruct (delete_shortcut op response) eqn:Hdel.
      * left. exists c, response. repeat (split; [done |]).
        destruct op; try discriminate. cbn [handler delete_shortcut] in *.
        rewrite delete_user_forward in Hc |- *. rewrite first_call_forward in Hc.
        injection Hc as <-. by rewrite run_forward, Hup, Hdel.
      * right. exists response. split; [by exists c |].
        destruct (handler_forward op request c Hc) as (f & -> & Htry & _ & Hf).
        rewrite run_forward, Hup, Htry, (Hf _ Hdel).
        by destruct (run up (backendless_response response)).
    + left. exists c, msg. repeat (split; [done |]).
      destruct (handler_forward op request c Hc) as (f & -> & _).
      by rewrite run_forward, Hup.
  - left. split; [done |]. by apply run_no_call.
Qed.

(** ** Claims on validation *)

(** What [create_user] does with a dictionary body. *)
Lemma create_user_dict request d :
  is_json request = true →
  body request = Some (JObject d) →
  create_user request =
    let nombre := default JNull (d !! "nombre") in
    let email := default JNull (d !! "email") in
    if negb (truthy nombre) || negb (truthy email) then
      Return (JObject {[ "error" :=
                JString "Missing required fields: 'nombre' and 'email'" ]}, 400)
    else
      forward (UpstreamCall POST BACKENDLESS_API_URL
                 (Some (JObject {[ "nombre" := nombre; "email" := email ]})))
              backendless_response.
Proof.
  intros Hj Hb. unfold create_user, get_json. rewrite Hj, Hb. reflexivity.
Qed.

Lemma missing_or_falsy_default d key :
  missing_or_falsy d key → truthy (default JNull (d !! key)) = false.
Proof. intros [-> | (v & -> & Hv)]; [reflexivity | exact Hv]. Qed.

Lemma create_user_rejects up request d :
  is_json request = true →
  body request = Some (JObject d) →
  missing_or_falsy d "nombre" ∨ missing_or_falsy d "email" →
  run up (create_user request) =
    (Responded
       (JObject {[ "error" := JString "Missing required fields: 'nombre' and 'email'" ]})
       400,
     []).
Proof.
  intros Hj Hb Hmiss. rewrite (create_user_dict request d Hj Hb). cbn zeta.
  assert (negb (truthy (default JNull (d !! "nombre")))
          || negb (truthy (default JNull (d !! "email"))) = true) as ->; [| reflexivity].
  apply orb_true_iff.
  destruct Hmiss as [H | H]; apply missing_or_falsy_default in H; rewrite H; auto.
Qed.

(** C4, as the code has it: a create request whose JSON body is an object
    that misses [nombre] or [email], or has either with an empty (or any
    other falsy) value, gets 400 and no upstream call is issued. *)
Theorem create_missing_field_400 up request d :
  is_json request = true →
  body request = Some (JObject d) →
  missing_or_falsy d "nombre" ∨ missing_or_falsy d "email" →
  run up (handler CreateUser request) =
    (Responded
       (JObject {[ "error" := JString "Missing required fields: 'nombre' and 'email'" ]})
       400,
     []).
Proof. apply create_user_rejects. Qed.

Lemma create_missing_field_400_witness :
  is_json request_no_email = true ∧
  body request_no_email = Some (JObject body_no_email) ∧
  (missing_or_falsy body_no_email "nombre" ∨ missing_or_falsy body_no_email "email") ∧
  run up_ana (handler CreateUser request_no_email) =
    (Responded
       (JObject {[ "error" := JString "Missing required fields: 'nombre' and 'email'" ]})
       400,
     []).
Proof.
  assert (Hmiss : missing_or_falsy body_no_email "nombre" ∨
                  missing_or_falsy body_no_email "email").
  { right. right. exists (JString EmptyString). split; reflexivity. }
  split; [reflexivity |]. split; [reflexivity |]. split; [exact Hmiss |].
  exact (create_missing_field_400 up_ana request_no_email _ eq_refl eq_refl Hmiss).
Defined.

(** C4 fails as stated: the JSON body [[]] has neither [nombre] nor
    [email], and [data.get] on a list raises [AttributeError]; the request
    ends in 500, not 400.  No upstream call is issued. *)
Lemma create_array_body_not_400 :
  is_json request_array = true ∧
  body request_array = Some (JArray []) ∧
  (∀ up, run up (handler CreateUser request_array) = (Uncaught AttributeError, [])) ∧
  http_status (Uncaught AttributeError) = 500 ∧
  ∀ up, http_status (fst (run up (handler CreateUser request_array))) ≠ 400.
Proof.
  split; [reflexivity |]. split; [reflexivity |]. split; [reflexivity |].
  split; [reflexivity |]. intros up. cbn. lia.
Qed.

(** C5, as the code has it: an update request whose JSON body is an object
    with neither the key [nombre] nor the key [email] gets 400 and no
    upstream call is issued. *)
Theorem update_no_field_400 up object_id request d :
  is_json request = true →
  body request = Some (JObject d) →
  d !! "nombre" = None →
  d !! "email" = None →
  run up (handler (UpdateUser object_id) request) =
    (Responded
       (JObject {[ "error" :=
          JString "No valid fields provided for update ('nombre' or 'email')" ]})
       400,
     []).
Proof.
  intros Hj Hb Hn He. cbn [handler]. rewrite (update_user_dict request object_id d Hj Hb).
  assert (truthy (JObject (update_payload d)) = false) as ->; [| reflexivity].
  by apply update_payload_empty.
Qed.

Lemma update_no_field_400_witness :
  is_json request_age = true ∧
  body request_age = Some (JObject {[ "edad" := JInt 30 ]}) ∧
  ({[ "edad" := JInt 30 ]} : gmap string json) !! "nombre" = None ∧
  ({[ "edad" := JInt 30 ]} : gmap string json) !! "email" = None ∧
  run up_ana (handler (UpdateUser "abc123") request_age) =
    (Responded
       (JObject {[ "error" :=
          JString "No valid fields provided for update ('nombre' or 'email')" ]})
       400,
     []).
Proof.
  split; [reflexivity |]. split; [reflexivity |]. split; [reflexivity |].
  split; [reflexivity |].
  exact (update_no_field_400 up_ana "abc123" request_age _ eq_refl eq_refl eq_refl eq_refl).
Defined.

(** C5 fails as stated: the JSON body [null] has no key at all, and
    ['nombre' in data] on [None] raises [TypeError]; the request ends in
    500, not 400.  No upstream call is issued. *)
Lemma update_null_body_not_400 :
  is_json request_null = true ∧
  body request_null = Some JNull ∧
  (∀ up, run up (handler (UpdateUser "abc123") request_null) = (Uncaught TypeError, [])) ∧
  http_status (Uncaught TypeError) = 500 ∧
  ∀ up, http_status (fst (run up (handler (UpdateUser "abc123") request_null))) ≠ 400.
Proof.
  split; [reflexivity |]. split; [reflexivity |]. split; [reflexivity |].
  split; [reflexivity |]. intros up. cbn. lia.
Qed.

(** C9: for a create request whose JSON body has non-empty [nombre] and
    [email], the single upstream call is a POST to the collection whose body
    has exactly the two fields [nombre] and [email], with the values of the
    request; no other field of the request goes upstream. *)
Theorem create_forwards_only_nombre_email up request d nombre email :
  is_json request = true →
  body request = Some (JObject d) →
  d !! "nombre" = Some nombre →
  d !! "email" = Some email →
  truthy nombre = true →
  truthy email = true →
  ∃ payload,
    snd (run up (handler CreateUser request)) =
      [UpstreamCall POST BACKENDLESS_API_URL (Some (JObject payload))] ∧
    payload !! "nombre" = Some nombre ∧
    payload !! "email" = Some email ∧
    ∀ key, key ≠ "nombre" → key ≠ "email" → payload !! key = None.
Proof.
  intros Hj Hb Hn He Htn Hte. exists {[ "nombre" := nombre; "email" := email ]}.
  split; [| split; [| split]].
  - rewrite handler_calls. cbn [handler]. rewrite (create_user_dict request d Hj Hb).
    rewrite Hn, He. cbn [default id]. cbn zeta. rewrite Htn, Hte. cbn [negb orb].
    by rewrite first_call_forward.
  - by simplify_map_eq.
  - by simplify_map_eq.
  - intros key H1 H2. by simplify_map_eq.
Qed.

Lemma create_forwards_only_nombre_email_witness :
  is_json request_extra = true ∧
  body request_extra = Some (JObject body_extra) ∧
  body_extra !! "nombre" = Some (JString "Ana") ∧
  body_extra !! "email" = Some (JString "ana@x.com") ∧
  truthy (JString "Ana") = true ∧
  truthy (JString "ana@x.com") = true ∧
  ∃ payload,
    snd (run up_ana (handler CreateUser request_extra)) =
      [UpstreamCall POST BACKENDLESS_API_URL (Some (JObject payload))] ∧
    payload !! "nombre" = Some (JString "Ana") ∧
    payload !! "email" = Some (JString "ana@x.com") ∧
    ∀ key, key ≠ "nombre" → key ≠ "email" → payload !! key = None.
Proof.
  do 6 (split; [reflexivity |]).
  exact (create_forwards_only_nombre_email up_ana request_extra body_extra _ _
           eq_refl eq_refl eq_refl eq_refl eq_refl eq_refl).
Defined.

(** The [admin] field of the request is not in the upstream call. *)
Example create_drops_admin :
  snd (run up_ana (handler CreateUser request_extra)) =
    [UpstreamCall POST BACKENDLESS_API_URL (Some body_ana)].
Proof. reflexivity. Qed.

(** C10: an update request whose JSON body is an object with the key
    [nombre] or [email] issues the PUT call whatever the values are, and
    the call carries each of the two fields exactly as the body has it (the
    empty string and [null] included); a create request with the same body
    is answered 400, without a call, as soon as [nombre] or [email] has a
    value that Python takes for false. *)
Theorem update_forwards_any_value up object_id request d :
  is_json request = true →
  body request = Some (JObject d) →
  is_Some (d !! "nombre") ∨ is_Some (d !! "email") →
  (∃ payload,
     snd (run up (handler (UpdateUser object_id) request)) =
       [UpstreamCall PUT (BACKENDLESS_API_URL +:+ "/" +:+ object_id)
          (Some (JObject payload))] ∧
     payload !! "nombre" = d !! "nombre" ∧
     payload !! "email" = d !! "email") ∧
  (∀ key v, key = "nombre" ∨ key = "email" →
            d !! key = Some v →
            truthy v = false →
            run up (handler CreateUser request) =
              (Responded
                 (JObject {[ "error" :=
                    JString "Missing required fields: 'nombre' and 'email'" ]})
                 400,
               [])).
Proof.
  intros Hj Hb Hkey. split.
  - exists (update_payload d). split; [| split].
    + rewrite handler_calls. cbn [handler].
      rewrite (update_user_dict request object_id d Hj Hb).
      destruct (truthy (JObject (update_payload d))) eqn:Ht.
      * cbn [negb]. by rewrite first_call_forward.
      * apply update_payload_empty in Ht as [Hn He]. rewrite Hn, He in Hkey.
        destruct Hkey as [[? [=]] | [? [=]]].
    + by rewrite update_payload_lookup, bool_decide_eq_true_2 by auto.
    + by rewrite update_payload_lookup, bool_decide_eq_true_2 by auto.
  - intros key v Hk Hv Hf. apply (create_user_rejects up request d Hj Hb).
    destruct Hk as [-> | ->]; [left | right]; right; eauto.
Qed.

Lemma update_forwards_any_value_witness :
  is_json request_blank = true ∧
  body request_blank = Some (JObject body_blank) ∧
  (is_Some (body_blank !! "nombre") ∨ is_Some (body_blank !! "email")) ∧
  (∃ payload,
     snd (run up_ana (handler (UpdateUser "abc123") request_blank)) =
       [UpstreamCall PUT (BACKENDLESS_API_URL +:+ "/" +:+ "abc123")
          (Some (JObject payload))] ∧
     payload !! "nombre" = body_blank !! "nombre" ∧
     payload !! "email" = body_blank !! "email") ∧
  (∀ key v, key = "nombre" ∨ key = "email" →
            body_blank !! key = Some v →
            truthy v = false →
            run up_ana (handler CreateUser request_blank) =
              (Responded
                 (JObject {[ "error" :=
                    JString "Missing required fields: 'nombre' and 'email'" ]})
                 400,
               [])).
Proof.
  assert (Hkey : is_Some (body_blank !! "nombre") ∨ is_Some (body_blank !! "email")).
  { left. exists (JString EmptyString). reflexivity. }
  split; [reflexivity |]. split; [reflexivity |]. split; [exact Hkey |].
  exact (update_forwards_any_value up_ana "abc123" request_blank body_blank
           eq_refl eq_refl Hkey).
Defined.

(** The same body through both routes: update forwards the empty string
    and the [null]; create answers 400. *)
Example update_blank_forwarded :
  snd (run up_ana (handler (UpdateUser "abc123") request_blank)) =
    [UpstreamCall PUT (BACKENDLESS_API_URL +:+ "/abc123") (Some (JObject body_blank))].
Proof. reflexivity. Qed.

Example create_blank_rejected :
  http_status (fst (run up_ana (handler CreateUser request_blank))) = 400 ∧
  snd (run up_ana (handler CreateUser request_blank)) = [].
Proof. split; reflexivity. Qed.

(** * Further properties of the routes *)

(** ** Upstream traffic *)


(** ** Requests without a usable JSON body *)

(** X2: [POST /users] and [PUT /users/<id>] answer a request that does not
    announce JSON with 400 and "Missing JSON in request", whatever the body
    is, and issue no upstream call. *)
Theorem missing_json_400 up op request :
  is_json request = false →
  op = CreateUser ∨ (∃ object_id, op = UpdateUser object_id) →
  run up (handler op request) =
    (Responded (JObject {[ "error" := JString "Missing JSON in request" ]}) 400, []).
Proof.
  intros Hj [-> | [object_id ->]]; cbn [handler]; unfold create_user, update_user;
    by rewrite Hj.
Qed.

Lemma missing_json_400_witness :
  is_json request_plain = false ∧
  (UpdateUser "abc123" = CreateUser ∨ ∃ object_id, UpdateUser "abc123" = UpdateUser object_id) ∧
  run up_ana (handler (UpdateUser "abc123") request_plain) =
    (Responded (JObject {[ "error" := JString "Missing JSON in request" ]}) 400, []).
Proof.
  assert (Hop : UpdateUser "abc123" = CreateUser ∨
                ∃ object_id, UpdateUser "abc123" = UpdateUser object_id)
    by (right; exists "abc123"; reflexivity).
  split; [reflexivity |]. split; [exact Hop |].
  exact (missing_json_400 up_ana (UpdateUser "abc123") request_plain eq_refl Hop).
Defined.

(** X3: when the request announces JSON and its body does not parse,
    [request.get_json()] raises [BadRequest] in [create_user] and
    [update_user]: the client gets 400 and no upstream call is issued. *)
Theorem malformed_json_bad_request up op request :
  is_json request = true →
  body request = None →
  op = CreateUser ∨ (∃ object_id, op = UpdateUser object_id) →
  run up (handler op request) = (Uncaught BadRequest, []) ∧
  http_status (fst (run up (handler op request))) = 400.
Proof.
  intros Hj Hb [-> | [object_id ->]]; cbn [handler];
    unfold create_user, update_user, get_json; by rewrite Hj, Hb.
Qed.

Lemma malformed_json_bad_request_witness :
  is_json request_malformed = true ∧
  body request_malformed = None ∧
  (CreateUser = CreateUser ∨ ∃ object_id, CreateUser = UpdateUser object_id) ∧
  run up_ana (handler CreateUser request_malformed) = (Uncaught BadRequest, []) ∧
  http_status (fst (run up_ana (handler CreateUser request_malformed))) = 400.
Proof.
  assert (Hop : CreateUser = CreateUser ∨ ∃ object_id, CreateUser = UpdateUser object_id)
    by (left; reflexivity).
  split; [reflexivity |]. split; [reflexivity |]. split; [exact Hop |].
  exact (malformed_json_bad_request up_ana CreateUser request_malformed eq_refl eq_refl Hop).
Defined.

(** ** Status codes *)

Lemma backendless_response_status response b s :
  backendless_response response = Return (b, s) → s = status_code response.
Proof.
  destruct (parsed response) as [data |] eqn:Hp.
  - destruct (Response_ok response) eqn:Hok.
    + rewrite (backendless_response_ok _ _ Hp Hok). congruence.
    + destruct data;
        try (rewrite (backendless_response_error_not_dict _ _ Hp) by (done || congruence);
             discriminate).
      rewrite (backendless_response_error _ _ Hp Hok). congruence.
  - rewrite (backendless_response_not_json _ Hp). congruence.
Qed.

(** The outcome of a call-free computation. *)
Lemma run_Responded_inv up (p : py view_result) b s :
  first_call p = None →
  fst (run up p) = Responded b s →
  p = Return (b, s).
Proof.
  destruct p as [[b' s'] | e | c k]; cbn [first_call run fst].
  - intros _ [= -> ->]. reflexivity.
  - intros _ [=].
  - intros [=].
Qed.

(** X4: when the upstream call answers and the proxy responds, the status
    is the upstream's own, with one exception: a 204 answer to DELETE is
    reported as 200. *)
Theorem status_passed_through up op request c response b s :
  first_call (handler op request) = Some c →
  up c = Answer response →
  fst (run up (handler op request)) = Responded b s →
  s = status_code response ∨
  (status_code response = 204 ∧ s = 200 ∧ ∃ object_id, op = DeleteUser object_id).
Proof.
  intros Hc Hup Hrun.
  destruct (delete_shortcut op response) eqn:Hdel.
  - destruct op as [| | | | object_id]; try discriminate. cbn [handler delete_shortcut] in *.
    rewrite delete_user_forward, run_forward in Hrun.
    rewrite delete_user_forward, first_call_forward in Hc. injection Hc as <-.
    rewrite Hup, Hdel in Hrun. cbn in Hrun. injection Hrun as _ <-.
    unfold in_200_204 in Hdel. apply orb_true_iff in Hdel as [H | H]; apply Z.eqb_eq in H.
    + by left.
    + right. eauto.
  - left. destruct (handler_forward op request c Hc) as (f & Heq & Htry & Hfree & Hf).
    rewrite Heq, run_forward, Hup, Htry in Hrun.
    assert (Hr : fst (run up (f response)) = Responded b s)
      by (destruct (run up (f response)); exact Hrun).
    apply run_Responded_inv in Hr; [| apply Hfree].
    rewrite (Hf _ Hdel) in Hr. by apply backendless_response_status in Hr.
Qed.

Lemma status_passed_through_witness :
  first_call (handler GetAllUsers request_plain) =
    Some (UpstreamCall GET BACKENDLESS_API_URL None) ∧
  up_404 (UpstreamCall GET BACKENDLESS_API_URL None) = Answer response_404 ∧
  fst (run up_404 (handler GetAllUsers request_plain)) =
    Responded (JObject {[ "error" := JString "Entity not found"; "details" := body_404 ]}) 404 ∧
  (404 = status_code response_404 ∨
   (status_code response_404 = 204 ∧ 404 = 200 ∧ ∃ object_id, GetAllUsers = DeleteUser object_id)).
Proof.
  split; [reflexivity |]. split; [reflexivity |]. split; [reflexivity |].
  exact (status_passed_through up_404 GetAllUsers request_plain _ response_404 _ 404
           eq_refl eq_refl eq_refl).
Defined.

(** X5: [DELETE /users/<id>] answers 200 only when the upstream answered
    200 or 204, and then the body is the deletion message. *)
Theorem delete_200_only_after_upstream_success up object_id request :
  http_status (fst (run up (handler (DeleteUser object_id) request))) = 200 →
  ∃ response,
    up (UpstreamCall DELETE (BACKENDLESS_API_URL +:+ "/" +:+ object_id) None) = Answer response ∧
    (status_code response = 200 ∨ status_code response = 204) ∧
    fst (run up (handler (DeleteUser object_id) request)) =
      Responded
        (JObject {[ "message" := JString ("User " +:+ object_id +:+ " successfully deleted") ]})
        200.
Proof.
  cbn [handler]. rewrite delete_user_forward, run_forward.
  destruct (up _) as [response | msg] eqn:Hup; [| cbn; lia].
  intros Hst. exists response. split; [done |].
  destruct (in_200_204 (status_code response)) eqn:H24.
  - split; [| reflexivity]. unfold in_200_204 in H24.
    apply orb_true_iff in H24 as [H | H]; apply Z.eqb_eq in H; auto.
  - exfalso. rewrite try_except_backendless_response in Hst.
    destruct (backendless_response_pure response) as [(b & s & Hr) | Hr];
      rewrite Hr in Hst; cbn in Hst; [| lia].
    apply backendless_response_status in Hr. rewrite Hr in Hst.
    unfold in_200_204 in H24. rewrite Hst in H24. discriminate.
Qed.

Lemma delete_200_only_after_upstream_success_witness :
  http_status (fst (run up_204 (handler (DeleteUser "abc123") request_plain))) = 200 ∧
  ∃ response,
    up_204 (UpstreamCall DELETE (BACKENDLESS_API_URL +:+ "/" +:+ "abc123") None) = Answer response ∧
    (status_code response = 200 ∨ status_code response = 204) ∧
    fst (run up_204 (handler (DeleteUser "abc123") request_plain)) =
      Responded
        (JObject {[ "message" := JString ("User " +:+ "abc123" +:+ " successfully deleted") ]})
        200.
Proof.
  split; [reflexivity |].
  exact (delete_200_only_after_upstream_success up_204 "abc123" request_plain eq_refl).
Defined.

(** ** Upstream errors whose body is not a JSON object *)

(** X6: when the upstream answers with a status from 400 to 599 and a JSON
    body that is not an object (an array, a string, a number, [true],
    [false] or [null]), [data.get] raises [AttributeError] in the
    normalization: the operation ends in 500, after its single upstream
    call. *)
Theorem upstream_error_not_object_raises up op request response data :
  reaches_normalization up op request response →
  parsed response = Some data →
  (∀ d, data ≠ JObject d) →
  400 ≤ status_code response < 600 →
  ∃ c, first_call (handler op request) = Some c ∧
       run up (handler op request) = (Uncaught AttributeError, [c]) ∧
       http_status (fst (run up (handler op request))) = 500.
Proof.
  intros Hreach Hp Hd Hst.
  destruct (run_normalization up op request response (Uncaught AttributeError) Hreach)
    as (c & Hc & Hrun).
  - intros up'. rewrite (backendless_response_error_not_dict _ _ Hp Hd); [reflexivity |].
    by apply Response_ok_false.
  - exists c. by rewrite Hrun.
Qed.

Lemma upstream_error_not_object_raises_witness :
  reaches_normalization up_500_array (GetUser "abc123") request_plain response_500_array ∧
  parsed response_500_array = Some (JArray []) ∧
  (∀ d, JArray [] ≠ JObject d) ∧
  400 ≤ status_code response_500_array < 600 ∧
  ∃ c, first_call (handler (GetUser "abc123") request_plain) = Some c ∧
       run up_500_array (handler (GetUser "abc123") request_plain) =
         (Uncaught AttributeError, [c]) ∧
       http_status (fst (run up_500_array (handler (GetUser "abc123") request_plain))) = 500.
Proof.
  assert (Hreach : reaches_normalization up_500_array (GetUser "abc123") request_plain
                     response_500_array).
  { eexists. split; [reflexivity |]. split; reflexivity. }
  assert (Hd : ∀ d, JArray [] ≠ JObject d) by (intros d; discriminate).
  assert (Hst : 400 ≤ status_code response_500_array < 600) by (cbn; lia).
  split; [exact Hreach |]. split; [reflexivity |]. split; [exact Hd |]. split; [exact Hst |].
  exact (upstream_error_not_object_raises up_500_array (GetUser "abc123") request_plain
           response_500_array (JArray []) Hreach eq_refl Hd Hst).
Defined.

(** ** Request bodies that are not JSON objects *)

(** X7: [POST /users] with a JSON body that is not an object ends in
    [AttributeError], hence 500, whatever the value is; no upstream call is
    issued. *)
Theorem create_not_object_raises up request data :
  is_json request = true →
  body request = Some data →
  (∀ d, data ≠ JObject d) →
  run up (handler CreateUser request) = (Uncaught AttributeError, []) ∧
  http_status (fst (run up (handler CreateUser request))) = 500.
Proof.
  intros Hj Hb Hd. cbn [handler]. unfold create_user, get_json. rewrite Hj, Hb.
  destruct data; try (split; reflexivity). by destruct (Hd d).
Qed.

Lemma create_not_object_raises_witness :
  is_json request_null = true ∧
  body request_null = Some JNull ∧
  (∀ d, JNull ≠ JObject d) ∧
  run up_ana (handler CreateUser request_null) = (Uncaught AttributeError, []) ∧
  http_status (fst (run up_ana (handler CreateUser request_null))) = 500.
Proof.
  assert (Hd : ∀ d, JNull ≠ JObject d) by (intros d; discriminate).
  split; [reflexivity |]. split; [reflexivity |]. split; [exact Hd |].
  exact (create_not_object_raises up_ana request_null JNull eq_refl eq_refl Hd).
Defined.

(** X8: [PUT /users/<id>] with a JSON body that is [null], a boolean or a
    number ends in [TypeError], hence 500: ['nombre' in data] needs an
    iterable.  No upstream call is issued. *)
Theorem update_scalar_body_raises up object_id request data :
  is_json request = true →
  body request = Some data →
  data = JNull ∨ (∃ b, data = JBool b) ∨ (∃ z, data = JInt z) ∨ (∃ f, data = JFloat f) →
  run up (handler (UpdateUser object_id) request) = (Uncaught TypeError, []) ∧
  http_status (fst (run up (handler (UpdateUser object_id) request))) = 500.
Proof.
  intros Hj Hb Hd. cbn [handler]. unfold update_user, get_json. rewrite Hj, Hb.
  destruct Hd as [-> | [[b ->] | [[z ->] | [f ->]]]]; split; reflexivity.
Qed.

Lemma update_scalar_body_raises_witness :
  is_json request_null = true ∧
  body request_null = Some JNull ∧
  (JNull = JNull ∨ (∃ b, JNull = JBool b) ∨ (∃ z, JNull = JInt z) ∨ (∃ f, JNull = JFloat f)) ∧
  run up_ana (handler (UpdateUser "abc123") request_null) = (Uncaught TypeError, []) ∧
  http_status (fst (run up_ana (handler (UpdateUser "abc123") request_null))) = 500.
Proof.
  assert (Hd : JNull = JNull ∨ (∃ b, JNull = JBool b) ∨ (∃ z, JNull = JInt z)
               ∨ (∃ f, JNull = JFloat f)) by (left; reflexivity).
  split; [reflexivity |]. split; [reflexivity |]. split; [exact Hd |].
  exact (update_scalar_body_raises up_ana "abc123" request_null JNull eq_refl eq_refl Hd).
Defined.

Lemma existsb_eq_str key (l : list json) :
  existsb (eq_str key) l = true ↔ In (JString key) l.
Proof.
  rewrite existsb_exists. split.
  - intros (v & Hin & Hv). destruct v; try discriminate.
    cbn in Hv. apply String.eqb_eq in Hv. by subst.
  - intros Hin. exists (JString key). split; [done |]. cbn. apply String.eqb_refl.
Qed.

(** X9: [PUT /users/<id>] with a JSON array as body: when neither the
    string "nombre" nor the string "email" is an element, the answer is the
    400 of a body without fields; when one of them is an element, the
    membership test succeeds and indexing the list by a string raises
    [TypeError], hence 500.  No upstream call is issued in either case. *)
Theorem update_array_body up object_id request l :
  is_json request = true →
  body request = Some (JArray l) →
  (¬ In (JString "nombre") l ∧ ¬ In (JString "email") l →
   run up (handler (UpdateUser object_id) request) =
     (Responded
        (JObject {[ "error" :=
           JString "No valid fields provided for update ('nombre' or 'email')" ]})
        400,
      [])) ∧
  (In (JString "nombre") l ∨ In (JString "email") l →
   run up (handler (UpdateUser object_id) request) = (Uncaught TypeError, [])).
Proof.
  intros Hj Hb. cbn [handler]. unfold update_user, get_json. rewrite Hj, Hb.
  py_unfold. cbn [negb py_bind py_contains].
  destruct (existsb (eq_str "nombre") l) eqn:Hn; cbn [py_getitem py_bind].
  { apply existsb_eq_str in Hn. split; [intros [H _]; by destruct H | done]. }
  destruct (existsb (eq_str "email") l) eqn:He; cbn [py_getitem py_bind].
  { apply existsb_eq_str in He. split; [intros [_ H]; by destruct H | done]. }
  split; [done |].
  intros [H | H]; apply existsb_eq_str in H; congruence.
Qed.

Lemma update_array_body_witness :
  is_json request_array_nombre = true ∧
  body request_array_nombre = Some (JArray [JString "nombre"]) ∧
  (¬ In (JString "nombre") [JString "nombre"] ∧ ¬ In (JString "email") [JString "nombre"] →
   run up_ana (handler (UpdateUser "abc123") request_array_nombre) =
     (Responded
        (JObject {[ "error" :=
           JString "No valid fields provided for update ('nombre' or 'email')" ]})
        400,
      [])) ∧
  (In (JString "nombre") [JString "nombre"] ∨ In (JString "email") [JString "nombre"] →
   run up_ana (handler (UpdateUser "abc123") request_array_nombre) = (Uncaught TypeError, [])).
Proof.
  split; [reflexivity |]. split; [reflexivity |].
  exact (update_array_body up_ana "abc123" request_array_nombre [JString "nombre"]
           eq_refl eq_refl).
Defined.

(** ** When a request is forwarded *)

(** The ways [create_user] can go: four without an upstream call, one with
    the POST call. *)
Lemma create_user_outcomes request :
  (create_user request =
     Return (JObject {[ "error" := JString "Missing JSON in request" ]}, 400) ∨
   create_user request = Raise BadRequest ∨
   create_user request = Raise AttributeError ∨
   create_user request =
     Return (JObject {[ "error" :=
               JString "Missing required fields: 'nombre' and 'email'" ]}, 400)) ∨
  (is_json request = true ∧
   ∃ d nombre email,
     body request = Some (JObject d) ∧
     d !! "nombre" = Some nombre ∧ d !! "email" = Some email ∧
     truthy nombre = true ∧ truthy email = true ∧
     create_user request =
       forward (UpstreamCall POST BACKENDLESS_API_URL
                  (Some (JObject {[ "nombre" := nombre; "email" := email ]})))
               backendless_response).
Proof.
  destruct (is_json request) eqn:Hj;
    [| left; left; unfold create_user; by rewrite Hj].
  destruct (body request) as [data |] eqn:Hb;
    [| left; right; left; unfold create_user, get_json; by rewrite Hj, Hb].
  destruct data as [| b | z | f | s | l | d].
  1-6: left; right; right; left; unfold create_user, get_json; by rewrite Hj, Hb.
  rewrite (create_user_dict request d Hj Hb). cbn zeta.
  destruct (d !! "nombre") as [nombre |] eqn:Hn; cbn [default id];
    [| left; by repeat right].
  destruct (truthy nombre) eqn:Htn; cbn [negb orb]; [| left; by repeat right].
  destruct (d !! "email") as [email |] eqn:He; cbn [default id];
    [| left; by repeat right].
  destruct (truthy email) eqn:Hte; cbn [negb]; [| left; by repeat right].
  right. split; [done |]. exists d, nombre, email. by repeat split.
Qed.

(** X10: [POST /users] issues an upstream call exactly when the request
    announces JSON and its body is an object whose [nombre] and [email] are
    both present with values that Python takes for true. *)
Theorem create_forwards_iff up request :
  snd (run up (handler CreateUser request)) ≠ [] ↔
  is_json request = true ∧
  ∃ d nombre email,
    body request = Some (JObject d) ∧
    d !! "nombre" = Some nombre ∧ d !! "email" = Some email ∧
    truthy nombre = true ∧ truthy email = true.
Proof.
  rewrite handler_calls. cbn [handler]. split.
  - intros Hcall.
    destruct (create_user_outcomes request)
      as [[H | [H | [H | H]]] | (Hj & d & n & e & Hb & Hn & He & Htn & Hte & _)];
      try (rewrite H in Hcall; by destruct Hcall).
    split; [done |]. by exists d, n, e.
  - intros (Hj & d & n & e & Hb & Hn & He & Htn & Hte).
    rewrite (create_user_dict request d Hj Hb), Hn, He. cbn [default id]. cbn zeta.
    rewrite Htn, Hte. cbn [negb orb]. by rewrite first_call_forward.
Qed.

(** The ways [update_user] can go: four without an upstream call, one with
    the PUT call. *)
Lemma update_user_outcomes request object_id :
  (update_user request object_id =
     Return (JObject {[ "error" := JString "Missing JSON in request" ]}, 400) ∨
   update_user request object_id = Raise BadRequest ∨
   update_user request object_id = Raise TypeError ∨
   update_user request object_id =
     Return (JObject {[ "error" :=
               JString "No valid fields provided for update ('nombre' or 'email')" ]},
             400)) ∨
  (is_json request = true ∧
   ∃ d,
     body request = Some (JObject d) ∧
     (is_Some (d !! "nombre") ∨ is_Some (d !! "email")) ∧
     update_user request object_id =
       forward (UpstreamCall PUT (BACKENDLESS_API_URL +:+ "/" +:+ object_id)
                  (Some (JObject (update_payload d))))
               backendless_response).
Proof.
  destruct (is_json request) eqn:Hj;
    [| left; left; unfold update_user; by rewrite Hj].
  destruct (body request) as [data |] eqn:Hb;
    [| left; right; left; unfold update_user, get_json; by rewrite Hj, Hb].
  destruct data as [| b | z | f | s | l | d].
  1-4: left; right; right; left; unfold update_user, get_json; by rewrite Hj, Hb.
  - (* a string *)
    left. right. right. unfold update_user, get_json. rewrite Hj, Hb.
    py_unfold. cbn [negb py_bind py_contains].
    destruct (str_contains "nombre" s); cbn [py_getitem py_bind]; [by left |].
    destruct (str_contains "email" s); cbn [py_getitem py_bind]; [by left | by right].
  - (* a list *)
    left. right. right. unfold update_user, get_json. rewrite Hj, Hb.
    py_unfold. cbn [negb py_bind py_contains].
    destruct (existsb (eq_str "nombre") l); cbn [py_getitem py_bind]; [by left |].
    destruct (existsb (eq_str "email") l); cbn [py_getitem py_bind]; [by left | by right].
  - (* a dictionary *)
    rewrite (update_user_dict request object_id d Hj Hb).
    destruct (truthy (JObject (update_payload d))) eqn:Ht; cbn [negb].
    + right. split; [done |]. exists d. split; [done |]. split; [| done].
      destruct (d !! "nombre") eqn:Hn; [left; eauto |].
      destruct (d !! "email") eqn:He; [right; eauto |].
      assert (truthy (JObject (update_payload d)) = false)
        by (by apply update_payload_empty).
      congruence.
    + left. by repeat right.
Qed.

(** X11: [PUT /users/<id>] issues an upstream call exactly when the
    request announces JSON and its body is an object that has the key
    [nombre] or the key [email]. *)
Theorem update_forwards_iff up object_id request :
  snd (run up (handler (UpdateUser object_id) request)) ≠ [] ↔
  is_json request = true ∧
  ∃ d, body request = Some (JObject d) ∧
       (is_Some (d !! "nombre") ∨ is_Some (d !! "email")).
Proof.
  rewrite handler_calls. cbn [handler]. split.
  - intros Hcall.
    destruct (update_user_outcomes request object_id)
      as [[H | [H | [H | H]]] | (Hj & d & Hb & Hkey & _)];
      try (rewrite H in Hcall; by destruct Hcall).
    split; [done |]. by exists d.
  - intros (Hj & d & Hb & Hkey).
    rewrite (update_user_dict request object_id d Hj Hb).
    destruct (truthy (JObject (update_payload d))) eqn:Ht; cbn [negb].
    + by rewrite first_call_forward.
    + apply update_payload_empty in Ht as [Hn He]. rewrite Hn, He in Hkey.
      destruct Hkey as [[? [=]] | [? [=]]].
Qed.

(** ** What goes upstream *)








(** ** How a request can end *)




(** X15: a request that is not forwarded is never answered with a success
    status.  Only [POST /users] and [PUT /users/<id>] can end without an
    upstream call (the two GET routes and the DELETE route always issue
    theirs), and then the status is 400, or 500 when an exception left the
    view. *)
Theorem unforwarded_status up op request :
  snd (run up (handler op request)) = [] →
  (op = CreateUser ∨ ∃ object_id, op = UpdateUser object_id) ∧
  (http_status (fst (run up (handler op request))) = 400 ∨
   http_status (fst (run up (handler op request))) = 500).
Proof.
  rewrite handler_calls. intros Hcalls.
  destruct op as [| | object_id | object_id | object_id]; cbn [handler] in *;
    try discriminate.
  - split; [by left |].
    destruct (create_user_outcomes request)
      as [[H | [H | [H | H]]] | (_ & d & n & e' & _ & _ & _ & _ & _ & H)];
      rewrite H in Hcalls |- *; cbn; auto.
    by rewrite first_call_forward in Hcalls.
  - split; [right; by exists object_id |].
    destruct (update_user_outcomes request object_id)
      as [[H | [H | [H | H]]] | (_ & d & _ & _ & H)];
      rewrite H in Hcalls |- *; cbn; auto.
    by rewrite first_call_forward in Hcalls.
Qed.

Lemma unforwarded_status_witness :
  snd (run up_ana (handler CreateUser request_no_email)) = [] ∧
  (CreateUser = CreateUser ∨ ∃ object_id, CreateUser = UpdateUser object_id) ∧
  (http_status (fst (run up_ana (handler CreateUser request_no_email))) = 400 ∨
   http_status (fst (run up_ana (handler CreateUser request_no_email))) = 500).
Proof.
  split; [reflexivity |].
  exact (unforwarded_status up_ana CreateUser request_no_email eq_refl).
Defined.

(** X17: the normalization is the same for all routes: two operations that
    reach it with the same upstream response end with the same outcome,
    whatever the operations, the requests and the upstreams are. *)
Theorem normalization_uniform up1 op1 request1 up2 op2 request2 response :
  reaches_normalization up1 op1 request1 response →
  reaches_normalization up2 op2 request2 response →
  fst (run up1 (handler op1 request1)) = fst (run up2 (handler op2 request2)).
Proof.
  intros (c1 & Hc1 & Hup1 & Hdel1) (c2 & Hc2 & Hup2 & Hdel2).
  destruct (handler_forward op1 request1 c1 Hc1) as (f1 & -> & Htry1 & _ & Hf1).
  destruct (handler_forward op2 request2 c2 Hc2) as (f2 & -> & Htry2 & _ & Hf2).
  rewrite !run_forward, Hup1, Hup2, Htry1, Htry2, (Hf1 _ Hdel1), (Hf2 _ Hdel2).
  destruct (backendless_response_pure response) as [(b & s & ->) | ->]; reflexivity.
Qed.

Lemma normalization_uniform_witness :
  reaches_normalization up_404 (DeleteUser "abc123") request_plain response_404 ∧
  reaches_normalization up_404 (UpdateUser "nope") request_ana response_404 ∧
  fst (run up_404 (handler (DeleteUser "abc123") request_plain)) =
  fst (run up_404 (handler (UpdateUser "nope") request_ana)).
Proof.
  assert (H1 : reaches_normalization up_404 (DeleteUser "abc123") request_plain response_404).
  { eexists. split; [reflexivity |]. split; reflexivity. }
  assert (H2 : reaches_normalization up_404 (UpdateUser "nope") request_ana response_404).
  { eexists. split; [reflexivity |]. split; reflexivity. }
  split; [exact H1 |]. split; [exact H2 |].
  exact (normalization_uniform up_404 (DeleteUser "abc123") request_plain
           up_404 (UpdateUser "nope") request_ana response_404 H1 H2).
Defined.
